(** * AI Vision Assistant: the request pipeline of [apps.py]

    A shallow embedding of the Streamlit script [src/apps.py]: the tag
    extraction call ([analyze_image]), the three prompt chains
    ([get_medical_response], [get_product_response],
    [get_general_response]) and the script body that ties them together
    ([app]).

    The script talks to three things it does not define: the Streamlit
    front end, the image-analysis HTTP endpoint and the Groq chat model.
    A run is therefore modelled as the list of calls it makes to them, in
    order (an [Event] trace), and the two remote services are oracles of
    the environment [Env]: they answer with a value or raise.  So is
    [st.image], the one Streamlit call that looks into the uploaded
    bytes: it raises when they are not an image it can decode.

    A run starts at the first Streamlit call of the script: the imports,
    the secrets and the chat model of its first lines are taken to have
    loaded, which is what an [Env] stands for.

    Strings are byte strings (the UTF-8 encoding of the source text). *)

From Stdlib Require Import String Ascii Strings.Byte List ZArith Bool Lia.
From Stdlib Require Import PrimFloat DecimalString.
Import ListNotations.

#[local] Set Warnings "-register-all,-inexact-float".
#[local] Open Scope string_scope.

(* ================================================================= *)
(** ** Python values and exceptions *)

(** What [response.json()] can return: the Python image of a JSON
    document.  A [PyDict] lists its entries in insertion order; the keys
    of a decoded object are pairwise distinct. *)
Inductive PyVal : Type :=
| PyNone
| PyBool (b : bool)
| PyInt (n : Z)
| PyFloat (x : float)
| PyStr (s : string)
| PyList (items : list PyVal)
| PyDict (entries : list (string * PyVal)).

(** Where an exception of a third-party package comes from. *)
Inductive Library : Type := Requests | JsonDecoder | LangChain | Groq | Pillow.

(** The exceptions of a run.  Every one of them is a subclass of
    [Exception], so both [except Exception] clauses of the script catch
    them.  [args] is what [str(e)] prints for a library exception. *)
Inductive PyExn : Type :=
| KeyError (key : string)
| TypeError (msg : string)
| ValueError (msg : string)
| LibraryError (origin : Library) (args : string).

Inductive PyResult (A : Type) : Type :=
| Ok (a : A)
| Raise (e : PyExn).
Arguments Ok {A} a.
Arguments Raise {A} e.

Definition type_name (v : PyVal) : string :=
  match v with
  | PyNone => "NoneType"
  | PyBool _ => "bool"
  | PyInt _ => "int"
  | PyFloat _ => "float"
  | PyStr _ => "str"
  | PyList _ => "list"
  | PyDict _ => "dict"
  end.

(** [isinstance(v, list)] *)
Definition isinstance_list (v : PyVal) : bool :=
  match v with PyList _ => true | _ => false end.

Definition str_of_nat (n : nat) : string := NilZero.string_of_uint (Nat.to_uint n).
Definition str_of_Z (n : Z) : string := NilZero.string_of_int (Z.to_int n).

Fixpoint dict_get (entries : list (string * PyVal)) (key : string) : option PyVal :=
  match entries with
  | [] => None
  | (k, v) :: rest => if String.eqb k key then Some v else dict_get rest key
  end.

(** [item[key]] for a string key (CPython 3.12 wording of the messages). *)
Definition getitem (item : PyVal) (key : string) : PyResult PyVal :=
  match item with
  | PyDict entries =>
      match dict_get entries key with
      | Some v => Ok v
      | None => Raise (KeyError key)
      end
  | PyList _ => Raise (TypeError "list indices must be integers or slices, not str")
  | PyStr _ => Raise (TypeError "string indices must be integers, not 'str'")
  | other => Raise (TypeError ("'" ++ type_name other ++ "' object is not subscriptable"))
  end.

(** A list comprehension [[f(item) for item in items]]: left to right,
    the first exception ends it. *)
Fixpoint comprehension {A B : Type} (f : A -> PyResult B) (items : list A)
  : PyResult (list B) :=
  match items with
  | [] => Ok []
  | item :: rest =>
      match f item with
      | Raise e => Raise e
      | Ok b =>
          match comprehension f rest with
          | Raise e => Raise e
          | Ok bs => Ok (b :: bs)
          end
      end
  end.

(** The strings of a sequence handed to [str.join], or the [TypeError]
    for its first element that is not a [str]. *)
Fixpoint join_items (index : nat) (items : list PyVal) : PyResult (list string) :=
  match items with
  | [] => Ok []
  | PyStr s :: rest =>
      match join_items (S index) rest with
      | Raise e => Raise e
      | Ok ss => Ok (s :: ss)
      end
  | other :: _ =>
      Raise (TypeError ("sequence item " ++ str_of_nat index
                        ++ ": expected str instance, " ++ type_name other ++ " found"))
  end.

(** [sep.join(items)] *)
Definition str_join (sep : string) (items : list PyVal) : PyResult string :=
  match join_items 0 items with
  | Raise e => Raise e
  | Ok ss => Ok (String.concat sep ss)
  end.

(** [sub in s] on strings. *)
Fixpoint contains (sub s : string) : bool :=
  prefix sub s ||
  match s with
  | EmptyString => false
  | String _ rest => contains sub rest
  end.

(* ================================================================= *)
(** ** The environment of a run *)

(** [st.secrets], read once when the script starts; every entry is a
    string. *)
Record Secrets : Type := {
  GROQ_API_KEY : string;
  HF_API_URL : string;
  HF_TOKEN : string;
  MEDICAL_MODEL : string;
  GENERAL_MODEL : string;
  PRODUCT_MODEL : string
}.

(** The arguments of [requests.post]. *)
Record Request : Type := {
  url : string;
  headers : list (string * string);
  data : list byte;
  timeout : Z
}.

(** What the script reads of a [requests.Response]: the status code
    and the outcome of calling [.json()] on it, which raises when the
    body is not a JSON document. *)
Record Response : Type := {
  status_code : Z;
  json : PyResult PyVal
}.

(** The parts of the world the script depends on and does not define:
    the secrets, the HTTP endpoint behind [requests.post], the chat
    model behind [groq_chat], [st.image] on the uploaded bytes (it
    returns, or raises when they cannot be decoded as an image), and
    Python's [repr] on strings and floats (used by [str] on lists and
    dicts). *)
Record Env : Type := {
  secrets : Secrets;
  requests_post : Request -> PyResult Response;
  groq_chat : string -> PyResult string;
  st_image : list byte -> PyResult unit;
  repr_str : string -> string;
  repr_float : float -> string
}.

(** The calls a run makes, in order: Streamlit calls and the two remote
    calls. *)
Inductive Event : Type :=
| StPageConfig (page_title layout : string)
| StTitle (body : string)
| StSubheader (body : string)
| StSelectbox (label : string) (options : list string)
| StFileUploader (label : string) (types : list string)
| StTextInput (label : string)
| StImage (image : list byte) (caption : string) (use_container_width : bool)
| StSpinner (text : string)
| StWrite (body : string)
| StWarning (body : string)
| StError (body : string)
| StSidebarMarkdown (body : string)
| HttpPost (request : Request)
| GroqInvoke (prompt : string).

(** The choices of the [st.selectbox]. *)
Inductive Category : Type := General | Medical | Product.

Definition category_option (c : Category) : string :=
  match c with
  | General => "General"
  | Medical => "Medical"
  | Product => "Product"
  end.

(* ================================================================= *)
(** ** A monad for traced, failing computations *)

(** A computation has made some calls and then returned or raised. *)
Definition M (A : Type) : Type := list Event * PyResult A.

Definition ret {A : Type} (a : A) : M A := ([], Ok a).

Definition bind {A B : Type} (m : M A) (k : A -> M B) : M B :=
  match m with
  | (t, Ok a) => let (t', r) := k a in ((t ++ t')%list, r)
  | (t, Raise e) => (t, Raise e)
  end.

Definition emit (ev : Event) : M unit := ([ev], Ok tt).

Definition lift {A : Type} (r : PyResult A) : M A := ([], r).

(** [try: body  except Exception as e: handler(e)] *)
Definition try_except {A : Type} (body : M A) (handler : PyExn -> M A) : M A :=
  match body with
  | (t, Ok a) => (t, Ok a)
  | (t, Raise e) => let (t', r) := handler e in ((t ++ t')%list, r)
  end.

Definition trace {A : Type} (m : M A) : list Event := fst m.
Definition outcome {A : Type} (m : M A) : PyResult A := snd m.

Declare Scope py_scope.
Delimit Scope py_scope with py.
Notation "x <- c1 ;; c2" := (bind c1 (fun x => c2))
  (at level 61, c1 at next level, right associativity) : py_scope.
Notation "c1 ;; c2" := (bind c1 (fun _ => c2))
  (at level 61, right associativity) : py_scope.
#[local] Open Scope py_scope.

(* ================================================================= *)
(** ** Python's [str], and [str.format] on the templates *)

Section Builtins.
Context (E : Env).

(** [repr(v)] *)
Fixpoint py_repr (v : PyVal) : string :=
  match v with
  | PyNone => "None"
  | PyBool true => "True"
  | PyBool false => "False"
  | PyInt n => str_of_Z n
  | PyFloat x => repr_float E x
  | PyStr s => repr_str E s
  | PyList items => "[" ++ String.concat ", " (map py_repr items) ++ "]"
  | PyDict entries =>
      "{" ++ String.concat ", "
               (map (fun kv => repr_str E (fst kv) ++ ": " ++ py_repr (snd kv)) entries)
          ++ "}"
  end.

(** [str(v)], which is also what [format] with an empty format specification gives for these types. *)
Definition py_str (v : PyVal) : string :=
  match v with
  | PyStr s => s
  | other => py_repr other
  end.

(** [str(e)] for an exception. *)
Definition exn_str (e : PyExn) : string :=
  match e with
  | KeyError key => repr_str E key
  | TypeError msg => msg
  | ValueError msg => msg
  | LibraryError _ args => args
  end.

Definition push (s : string) (r : PyResult string) : PyResult string :=
  match r with
  | Ok s' => Ok (s ++ s')
  | Raise e => Raise e
  end.

(** [template.format] with keyword arguments [kwargs], the formatter behind
    [ChatPromptTemplate.from_template], on the fragment the script's
    templates use: literal text, doubled braces and [{name}] fields.
    [field] is [Some name] while the characters of a field are read. *)
Fixpoint format_from (template : string) (field : option string)
         (kwargs : list (string * PyVal)) : PyResult string :=
  match template with
  | EmptyString =>
      match field with
      | None => Ok ""
      | Some _ => Raise (ValueError "expected '}' before end of string")
      end
  | String c rest =>
      match field with
      | Some name =>
          if Ascii.eqb c "}" then
            match dict_get kwargs name with
            | Some v => push (py_str v) (format_from rest None kwargs)
            | None => Raise (KeyError name)
            end
          else format_from rest (Some (name ++ String c "")) kwargs
      | None =>
          if Ascii.eqb c "{" then
            match rest with
            | String c' rest' =>
                if Ascii.eqb c' "{" then push "{" (format_from rest' None kwargs)
                else format_from rest (Some "") kwargs
            | EmptyString => Raise (ValueError "Single '{' encountered in format string")
            end
          else if Ascii.eqb c "}" then
            match rest with
            | String c' rest' =>
                if Ascii.eqb c' "}" then push "}" (format_from rest' None kwargs)
                else Raise (ValueError "Single '}' encountered in format string")
            | EmptyString => Raise (ValueError "Single '}' encountered in format string")
            end
          else push (String c "") (format_from rest None kwargs)
      end
  end.

Definition format (template : string) (kwargs : list (string * PyVal))
  : PyResult string :=
  format_from template None kwargs.

End Builtins.

(* ================================================================= *)
(** ** The script *)

Definition newline : string := String "010" EmptyString.

(** The text of a triple-quoted literal, line by line. *)
Definition lines (ls : list string) : string := String.concat newline ls.

(** The template of [get_medical_response]. *)
Definition medical_template : string :=
  lines [ "";
          "    As a medical assistant, analyze these image tags: {tags}";
          "    For this question: {query}";
          "";
          "    Provide:";
          "    1. 3 possible conditions matching these symptoms";
          "    2. Recommended diagnostic tests";
          "    3. Urgency level (Emergency/Urgent/Routine)";
          "    4. Clear disclaimer";
          "    ";
          "    Format: Concise bullet points in plain text";
          "    " ].

(** The template of [get_product_response]. *)
Definition product_template : string :=
  lines [ "";
          "    Analyze product features: {analysis}";
          "    For query: {query}";
          "";
          "    Provide:";
          "    1. Product identification";
          "    2. Price estimate range (USD)";
          "    3. 3 fictional purchase options";
          "    4. Alternative suggestions";
          "    ";
          "    Format: Simple text with line breaks";
          "    " ].

(** The template of [get_general_response]. *)
Definition general_template : string :=
  lines [ "";
          "    Analyze image description: {analysis}";
          "    For question: {query}";
          "";
          "    Provide:";
          "    1. Direct answer";
          "    2. 3 relevant facts";
          "    3. Related information";
          "    ";
          "    Format: Short paragraphs in plain text";
          "    " ].

Definition medical_disclaimer : string :=
  "⚠️ This is not medical advice - Consult a doctor for diagnosis".

Definition product_disclaimer : string :=
  "ℹ️ Price estimates are approximate".

Definition category_guide : string :=
  lines [ "";
          "- **General**: Landscapes, objects, animals";
          "- **Medical**: Skin conditions, X-rays, scans";
          "- **Product**: Consumer goods, electronics, clothing";
          "" ].

Definition how_it_works : string :=
  lines [ "";
          "1. Select image type";
          "2. Upload image";
          "3. Ask your question";
          "4. Get AI-powered analysis";
          "" ].

Section Script.
Context (E : Env).

(** [requests.post(...)]: one call to the endpoint. *)
Definition post (r : Request) : M Response :=
  ([HttpPost r], requests_post E r).

(** [st.image(image, caption=..., use_container_width=...)]: the call
    decodes the bytes and can raise. *)
Definition show_image (image : list byte) (caption : string)
           (use_container_width : bool) : M unit :=
  ([StImage image caption use_container_width], st_image E image).

(** [groq_chat] on the single human message a formatted template
    becomes; [StrOutputParser] returns the text of its answer. *)
Definition invoke_groq (prompt : string) : M string :=
  ([GroqInvoke prompt], groq_chat E prompt).

(** [(prompt | groq_chat | StrOutputParser()).invoke(kwargs)] for
    [prompt = ChatPromptTemplate.from_template(template)]. *)
Definition chain_invoke (template : string) (kwargs : list (string * PyVal))
  : M string :=
  prompt <- lift (format E template kwargs) ;;
  invoke_groq prompt.

Definition analyze_image (image_bytes : list byte) (model_name : string) : M PyVal :=
  let headers := [("Authorization", "Bearer " ++ HF_TOKEN (secrets E))] in
  try_except
    (response <- post {| url := HF_API_URL (secrets E) ++ model_name;
                         headers := headers;
                         data := image_bytes;
                         timeout := 30 |} ;;
     if (status_code response =? 200)%Z then lift (json response)
     else ret (PyList []))
    (fun e => ret (PyStr ("Analysis error: " ++ exn_str E e))).

Definition get_medical_response (tags : PyVal) (query : string) : M string :=
  chain_invoke medical_template [("tags", tags); ("query", PyStr query)].

Definition get_product_response (analysis : string) (query : string) : M string :=
  chain_invoke product_template [("analysis", PyStr analysis); ("query", PyStr query)].

Definition get_general_response (analysis : string) (query : string) : M string :=
  chain_invoke general_template [("analysis", PyStr analysis); ("query", PyStr query)].

(** The conditional expression that binds [tags] in the Medical branch:
    [", ".join([item["label"] for item in raw_tags])] when [raw_tags]
    is a list, [raw_tags] itself otherwise. *)
Definition tags_of (raw_tags : PyVal) : PyResult PyVal :=
  match raw_tags with
  | PyList items =>
      match comprehension (fun item => getitem item "label") items with
      | Raise e => Raise e
      | Ok labels =>
          match str_join ", " labels with
          | Raise e => Raise e
          | Ok joined => Ok (PyStr joined)
          end
      end
  | other => Ok other
  end.

(** The [if category == ...] statement inside the [try]: it binds
    [response] and [disclaimer]. *)
Definition respond (category : string) (image_bytes : list byte)
           (user_query : string) : M (string * string) :=
  if String.eqb category "Medical" then
    raw_tags <- analyze_image image_bytes (MEDICAL_MODEL (secrets E)) ;;
    tags <- lift (tags_of raw_tags) ;;
    response <- get_medical_response tags user_query ;;
    ret (response, medical_disclaimer)
  else if String.eqb category "Product" then
    analysis <- analyze_image image_bytes (PRODUCT_MODEL (secrets E)) ;;
    response <- get_product_response (py_str E analysis) user_query ;;
    ret (response, product_disclaimer)
  else
    analysis <- analyze_image image_bytes (GENERAL_MODEL (secrets E)) ;;
    response <- get_general_response (py_str E analysis) user_query ;;
    ret (response, "").

(** The body of [if uploaded_file and user_query:].  The call of
    [st.image] stands before the [try], so what it raises is not
    caught. *)
Definition submit (category : string) (image_bytes : list byte)
           (user_query : string) : M unit :=
  show_image image_bytes "Uploaded Image" true ;;
  emit (StSpinner "Analyzing...") ;;
  try_except
    (rd <- respond category image_bytes user_query ;;
     emit (StSubheader "Analysis Results") ;;
     emit (StWrite (fst rd)) ;;
     if String.eqb (snd rd) "" then ret tt else emit (StWarning (snd rd)))
    (fun e => emit (StError ("Analysis failed: " ++ exn_str E e))).

(** One run of the script, from its first Streamlit call on.  An
    exception that leaves [submit] ends the run: the sidebar calls after
    it are not made.  [choice] is the option selected in the
    selectbox, [uploaded_file] the content of the uploaded file ([None]
    when there is none; an uploaded file object is truthy whatever its
    content) and [user_query] the text of the input field. *)
Definition app (choice : Category) (uploaded_file : option (list byte))
           (user_query : string) : M unit :=
  emit (StPageConfig "AI Vision Assistant" "wide") ;;
  emit (StTitle "🖼️ AI Vision Assistant") ;;
  emit (StSubheader "Upload Image + Select Analysis Type") ;;
  emit (StSelectbox "Select Analysis Type:" ["General"; "Medical"; "Product"]) ;;
  let category := category_option choice in
  emit (StFileUploader "Choose an image..." ["jpg"; "jpeg"; "png"]) ;;
  emit (StTextInput "Ask about the image:") ;;
  match uploaded_file with
  | Some image_bytes =>
      if String.eqb user_query "" then ret tt
      else submit category image_bytes user_query
  | None => ret tt
  end ;;
  emit (StSidebarMarkdown "## Category Guide") ;;
  emit (StSidebarMarkdown category_guide) ;;
  emit (StSidebarMarkdown "## How It Works") ;;
  emit (StSidebarMarkdown how_it_works).

End Script.

(* ================================================================= *)
(** ** Reading a trace *)

Definition requests_of (t : list Event) : list Request :=
  flat_map (fun ev => match ev with HttpPost r => [r] | _ => [] end) t.

Definition prompts_of (t : list Event) : list string :=
  flat_map (fun ev => match ev with GroqInvoke p => [p] | _ => [] end) t.

Definition written_of (t : list Event) : list string :=
  flat_map (fun ev => match ev with StWrite s => [s] | _ => [] end) t.

Definition warnings_of (t : list Event) : list string :=
  flat_map (fun ev => match ev with StWarning s => [s] | _ => [] end) t.

Definition errors_of (t : list Event) : list string :=
  flat_map (fun ev => match ev with StError s => [s] | _ => [] end) t.

Definition subheaders_of (t : list Event) : list string :=
  flat_map (fun ev => match ev with StSubheader s => [s] | _ => [] end) t.

Definition images_of (t : list Event) : list (list byte) :=
  flat_map (fun ev => match ev with StImage i _ _ => [i] | _ => [] end) t.

(** The calls every run makes, with or without a submission: the page
    head with its three widgets, and the sidebar. *)
Definition page_head : list Event :=
  [ StPageConfig "AI Vision Assistant" "wide";
    StTitle "🖼️ AI Vision Assistant";
    StSubheader "Upload Image + Select Analysis Type";
    StSelectbox "Select Analysis Type:" ["General"; "Medical"; "Product"];
    StFileUploader "Choose an image..." ["jpg"; "jpeg"; "png"];
    StTextInput "Ask about the image:" ].

Definition sidebar : list Event :=
  [ StSidebarMarkdown "## Category Guide";
    StSidebarMarkdown category_guide;
    StSidebarMarkdown "## How It Works";
    StSidebarMarkdown how_it_works ].

(* ================================================================= *)
(** ** The vocabulary of the specification *)

(** The model identifier a category selects. *)
Definition endpoint_model (s : Secrets) (c : Category) : string :=
  match c with
  | Medical => MEDICAL_MODEL s
  | Product => PRODUCT_MODEL s
  | General => GENERAL_MODEL s
  end.

(** The request of a tag extraction for [model_name]. *)
Definition tag_request (E : Env) (model_name : string) (image_bytes : list byte)
  : Request :=
  {| url := HF_API_URL (secrets E) ++ model_name;
     headers := [("Authorization", "Bearer " ++ HF_TOKEN (secrets E))];
     data := image_bytes;
     timeout := 30 |}.

(** The error string of the Tag Extractor for the exception [e]. *)
Definition analysis_error (E : Env) (e : PyExn) : string :=
  "Analysis error: " ++ exn_str E e.

(** A value is the error-string variant when it is a [str] that starts
    with the marker. *)
Definition is_error_string (v : PyVal) : bool :=
  match v with
  | PyStr s => prefix "Analysis error: " s
  | _ => false
  end.

(** What the Tag Extractor makes of the endpoint's answer. *)
Definition extracted (E : Env) (answer : PyResult Response) : PyVal :=
  match answer with
  | Raise e => PyStr (analysis_error E e)
  | Ok response =>
      if (status_code response =? 200)%Z then
        match json response with
        | Ok body => body
        | Raise e => PyStr (analysis_error E e)
        end
      else PyList []
  end.

(** The disclaimer of a category. *)
Definition disclaimer_of (c : Category) : string :=
  match c with
  | Medical => medical_disclaimer
  | Product => product_disclaimer
  | General => ""
  end.

(** A disclaimer is displayed when it is not empty. *)
Definition displayed (disclaimer : string) : list string :=
  if String.eqb disclaimer "" then [] else [disclaimer].

(** The three templates with their two slots filled. *)
Definition medical_prompt (tags query : string) : string :=
  lines [ "";
          "    As a medical assistant, analyze these image tags: " ++ tags;
          "    For this question: " ++ query;
          "";
          "    Provide:";
          "    1. 3 possible conditions matching these symptoms";
          "    2. Recommended diagnostic tests";
          "    3. Urgency level (Emergency/Urgent/Routine)";
          "    4. Clear disclaimer";
          "    ";
          "    Format: Concise bullet points in plain text";
          "    " ].

Definition product_prompt (analysis query : string) : string :=
  lines [ "";
          "    Analyze product features: " ++ analysis;
          "    For query: " ++ query;
          "";
          "    Provide:";
          "    1. Product identification";
          "    2. Price estimate range (USD)";
          "    3. 3 fictional purchase options";
          "    4. Alternative suggestions";
          "    ";
          "    Format: Simple text with line breaks";
          "    " ].

Definition general_prompt (analysis query : string) : string :=
  lines [ "";
          "    Analyze image description: " ++ analysis;
          "    For question: " ++ query;
          "";
          "    Provide:";
          "    1. Direct answer";
          "    2. 3 relevant facts";
          "    3. Related information";
          "    ";
          "    Format: Short paragraphs in plain text";
          "    " ].

Definition prompt_for (c : Category) (analysis query : string) : string :=
  match c with
  | Medical => medical_prompt analysis query
  | Product => product_prompt analysis query
  | General => general_prompt analysis query
  end.

(** Composition and generation for a category, on an analysis text. *)
Definition get_response (E : Env) (c : Category) (analysis query : string)
  : M string :=
  match c with
  | Medical => get_medical_response E (PyStr analysis) query
  | Product => get_product_response E analysis query
  | General => get_general_response E analysis query
  end.

(** The analysis text a category passes into composition: the Medical
    branch collapses a list of tags, the other two branches call [str]. *)
Definition analysis_text (E : Env) (c : Category) (raw : PyVal) : PyResult string :=
  match c with
  | Medical =>
      match tags_of raw with
      | Ok tags => Ok (py_str E tags)
      | Raise e => Raise e
      end
  | _ => Ok (py_str E raw)
  end.

(** A tag as the endpoint returns it. *)
Definition tag_object (tag : string * float) : PyVal :=
  PyDict [("label", PyStr (fst tag)); ("score", PyFloat (snd tag))].

(** [item] is a dict with a ["label"] key. *)
Definition has_label (item : PyVal) : bool :=
  match item with
  | PyDict entries =>
      match dict_get entries "label" with
      | Some _ => true
      | None => false
      end
  | _ => false
  end.

(** The failure message of the orchestrator for the exception [e]. *)
Definition analysis_failed (E : Env) (e : PyExn) : string :=
  "Analysis failed: " ++ exn_str E e.

(** The result block: the heading, the generated text and the category's
    disclaimer when it has one. *)
Definition result_block (c : Category) (response : string) : list Event :=
  StSubheader "Analysis Results" :: StWrite response
    :: map StWarning (displayed (disclaimer_of c)).

(** The orchestrator as the specification describes it, from Extracting
    to Displaying or Failed: the calls of a submission once [st.image]
    has returned and the spinner is up. *)
Definition pipeline (E : Env) (c : Category) (image_bytes : list byte)
           (user_query : string) : list Event :=
  let request := tag_request E (endpoint_model (secrets E) c) image_bytes in
  HttpPost request ::
    match analysis_text E c (extracted E (requests_post E request)) with
    | Raise e => [StError (analysis_failed E e)]
    | Ok text =>
        GroqInvoke (prompt_for c text user_query) ::
          match groq_chat E (prompt_for c text user_query) with
          | Ok response => result_block c response
          | Raise e => [StError (analysis_failed E e)]
          end
    end.

(** The label of an item the Medical collapse accepts: a dict whose
    ["label"] is a [str]; other keys are not looked at. *)
Definition label_of (item : PyVal) : option string :=
  match item with
  | PyDict entries =>
      match dict_get entries "label" with
      | Some (PyStr s) => Some s
      | _ => None
      end
  | _ => None
  end.

Definition well_tagged (item : PyVal) : bool :=
  match label_of item with
  | Some _ => true
  | None => false
  end.

Definition labels_of (items : list PyVal) : list string :=
  flat_map (fun item => match label_of item with Some s => [s] | None => [] end) items.

(* ================================================================= *)
(** ** Sample environments *)

Definition demo_secrets : Secrets :=
  {| GROQ_API_KEY := "gsk_demo";
     HF_API_URL := "https://api-inference.huggingface.co/models/";
     HF_TOKEN := "hf_demo";
     MEDICAL_MODEL := "openai/clip-vit-base-patch32";
     GENERAL_MODEL := "Salesforce/blip-image-captioning-base";
     PRODUCT_MODEL := "google/vit-base-patch16-224" |}.

(** [repr] on a string without quotes, backslashes or control
    characters. *)
Definition plain_repr (s : string) : string := "'" ++ s ++ "'".

(** A PNG file of one grey pixel: the signature and the [IHDR], [IDAT]
    and [IEND] chunks. *)
Definition demo_image : list byte :=
  [ x89; x50; x4e; x47; x0d; x0a; x1a; x0a;
    x00; x00; x00; x0d; x49; x48; x44; x52;
    x00; x00; x00; x01; x00; x00; x00; x01; x08; x00; x00; x00; x00;
    x3a; x7e; x9b; x55;
    x00; x00; x00; x0a; x49; x44; x41; x54;
    x78; xda; x63; x60; x00; x00; x00; x02; x00; x01;
    xe5; x27; xde; xfc;
    x00; x00; x00; x00; x49; x45; x4e; x44; xae; x42; x60; x82 ].

Fixpoint bytes_eqb (a b : list byte) : bool :=
  match a, b with
  | [], [] => true
  | x :: a', y :: b' => Byte.eqb x y && bytes_eqb a' b'
  | _, _ => false
  end.

(** A front end that decodes the sample image and nothing else; an
    empty file in particular is refused. *)
Definition demo_st_image (image : list byte) : PyResult unit :=
  if bytes_eqb image demo_image then Ok tt
  else Raise (LibraryError Pillow "cannot identify image file").

(** An environment whose endpoint and chat model answer [endpoint] and
    [model]; the samples below print no float. *)
Definition demo_env (endpoint : PyResult Response) (model : PyResult string) : Env :=
  {| secrets := demo_secrets;
     requests_post := fun _ => endpoint;
     groq_chat := fun _ => model;
     st_image := demo_st_image;
     repr_str := plain_repr;
     repr_float := fun _ => "0.0" |}.

Definition rash_tags : PyVal :=
  PyList [ tag_object ("rash", 0.9%float); tag_object ("erythema", 0.7%float) ].

Definition answers (body : PyVal) : PyResult Response :=
  Ok {| status_code := 200; json := Ok body |}.

Definition unavailable : PyResult Response :=
  Ok {| status_code := 503;
        json := Ok (PyDict [("error", PyStr "Service Unavailable")]) |}.

Definition timed_out : PyResult Response :=
  Raise (LibraryError Requests "Read timed out. (read timeout=30)").

Definition not_json : PyResult Response :=
  Ok {| status_code := 200;
        json := Raise (LibraryError JsonDecoder
                         "Expecting value: line 1 column 1 (char 0)") |}.

Definition groq_down : PyResult string :=
  Raise (LibraryError Groq "Connection error.").

(** The endpoint returns the two tags of the specification. *)
Definition rash_env : Env :=
  demo_env (answers rash_tags) (Ok "Likely a contact rash.").

(** The POST times out; the model answers. *)
Definition timeout_env : Env :=
  demo_env timed_out (Ok "It looks like a kettle.").

(** The endpoint answers 503; the model answers. *)
Definition unavailable_env : Env :=
  demo_env unavailable (Ok "I cannot tell from the image.").

(** The endpoint answers 200 with a body that is not JSON. *)
Definition not_json_env : Env :=
  demo_env not_json (Ok "I cannot tell from the image.").

(** The endpoint returns a caption; the model call fails. *)
Definition groq_down_env : Env :=
  demo_env (answers (PyDict [("description", PyStr "a red bicycle")])) groq_down.

(** The endpoint returns a list with an item that has no label. *)
Definition unlabelled_tags : list PyVal :=
  [ tag_object ("rash", 0.9%float); PyDict [("score", PyFloat 0.7%float)] ].

Definition unlabelled_env : Env :=
  demo_env (answers (PyList unlabelled_tags)) (Ok "Likely a contact rash.").

(** The endpoint returns a tag whose label is a number. *)
Definition numeric_label_tags : list PyVal :=
  [ PyDict [("label", PyInt 3); ("score", PyFloat 0.9%float)] ].

Definition numeric_label_env : Env :=
  demo_env (answers (PyList numeric_label_tags)) (Ok "Likely a contact rash.").

(** The endpoint returns a caption; the model answers. *)
Definition caption_env : Env :=
  demo_env (answers (PyDict [("description", PyStr "a red bicycle")]))
           (Ok "A red bicycle leaning on a wall.").

(* ================================================================= *)
(** ** Substrings *)

Lemma prefix_append (s t : string) : prefix s (s ++ t) = true.
Proof.
  induction s as [|a s IH]; simpl.
  - destruct t; reflexivity.
  - destruct (ascii_dec a a) as [_|ne]; [exact IH | now elim ne].
Qed.

Lemma contains_here (sub s : string) : prefix sub s = true -> contains sub s = true.
Proof.
  intros H. destruct s; cbn [contains]; rewrite H; reflexivity.
Qed.

Lemma contains_skip (sub : string) (c : ascii) (s : string) :
  contains sub s = true -> contains sub (String c s) = true.
Proof.
  intros H. cbn [contains]. rewrite H. apply orb_true_r.
Qed.

Lemma contains_append_r (sub s t : string) :
  contains sub t = true -> contains sub (s ++ t) = true.
Proof.
  intros H. induction s as [|c s IH]; simpl String.append.
  - exact H.
  - apply contains_skip, IH.
Qed.

Lemma contains_middle (sub pre post : string) :
  contains sub (pre ++ sub ++ post) = true.
Proof.
  apply contains_append_r, contains_here, prefix_append.
Qed.

#[local] Ltac find_slot :=
  repeat first
    [ apply contains_here, prefix_append
    | apply contains_skip
    | apply contains_append_r ].

Lemma prompt_for_contains_analysis (c : Category) (analysis query : string) :
  contains analysis (prompt_for c analysis query) = true.
Proof.
  destruct c; cbv [prompt_for medical_prompt product_prompt general_prompt
                   lines String.concat newline];
    cbn [String.append]; find_slot.
Qed.

Lemma prompt_for_contains_query (c : Category) (analysis query : string) :
  contains query (prompt_for c analysis query) = true.
Proof.
  destruct c; cbv [prompt_for medical_prompt product_prompt general_prompt
                   lines String.concat newline];
    cbn [String.append]; find_slot.
Qed.

(* ================================================================= *)
(** ** The templates, formatted *)

Lemma format_medical (E : Env) (tags : PyVal) (query : string) :
  format E medical_template [("tags", tags); ("query", PyStr query)]
  = Ok (medical_prompt (py_str E tags) query).
Proof. vm_compute. reflexivity. Qed.

Lemma format_product (E : Env) (analysis query : string) :
  format E product_template [("analysis", PyStr analysis); ("query", PyStr query)]
  = Ok (product_prompt analysis query).
Proof. vm_compute. reflexivity. Qed.

Lemma format_general (E : Env) (analysis query : string) :
  format E general_template [("analysis", PyStr analysis); ("query", PyStr query)]
  = Ok (general_prompt analysis query).
Proof. vm_compute. reflexivity. Qed.

(* ================================================================= *)
(** ** Running the monad *)

Lemma bind_ok {A B : Type} (t : list Event) (a : A) (k : A -> M B) :
  bind (t, Ok a) k = ((t ++ trace (k a))%list, outcome (k a)).
Proof. unfold bind, trace, outcome. destruct (k a); reflexivity. Qed.

Lemma bind_raise {A B : Type} (t : list Event) (e : PyExn) (k : A -> M B) :
  bind (t, Raise e) k = (t, Raise e).
Proof. reflexivity. Qed.

Lemma try_except_ok {A : Type} (t : list Event) (a : A) (h : PyExn -> M A) :
  try_except (t, Ok a) h = (t, Ok a).
Proof. reflexivity. Qed.

Lemma try_except_raise {A : Type} (t : list Event) (e : PyExn) (h : PyExn -> M A) :
  try_except (t, Raise e) h = ((t ++ trace (h e))%list, outcome (h e)).
Proof. unfold try_except, trace, outcome. destruct (h e); reflexivity. Qed.

(* ================================================================= *)
(** ** The Tag Extractor and the three chains *)

(** [analyze_image] makes one call, the POST of [tag_request], and
    returns a value whatever the endpoint does. *)
Lemma analyze_image_run (E : Env) (image_bytes : list byte) (model_name : string) :
  analyze_image E image_bytes model_name
  = ([HttpPost (tag_request E model_name image_bytes)],
     Ok (extracted E (requests_post E (tag_request E model_name image_bytes)))).
Proof.
  unfold analyze_image, post, extracted, analysis_error.
  fold (tag_request E model_name image_bytes).
  destruct (requests_post E (tag_request E model_name image_bytes)) as [response|e].
  - rewrite bind_ok.
    destruct (status_code response =? 200)%Z.
    + unfold lift. destruct (json response); reflexivity.
    + reflexivity.
  - reflexivity.
Qed.

Lemma get_medical_response_run (E : Env) (tags : PyVal) (query : string) :
  get_medical_response E tags query
  = ([GroqInvoke (medical_prompt (py_str E tags) query)],
     groq_chat E (medical_prompt (py_str E tags) query)).
Proof.
  unfold get_medical_response, chain_invoke. rewrite format_medical. reflexivity.
Qed.

Lemma get_product_response_run (E : Env) (analysis query : string) :
  get_product_response E analysis query
  = ([GroqInvoke (product_prompt analysis query)],
     groq_chat E (product_prompt analysis query)).
Proof.
  unfold get_product_response, chain_invoke. rewrite format_product. reflexivity.
Qed.

Lemma get_general_response_run (E : Env) (analysis query : string) :
  get_general_response E analysis query
  = ([GroqInvoke (general_prompt analysis query)],
     groq_chat E (general_prompt analysis query)).
Proof.
  unfold get_general_response, chain_invoke. rewrite format_general. reflexivity.
Qed.

Lemma get_response_run (E : Env) (c : Category) (analysis query : string) :
  get_response E c analysis query
  = ([GroqInvoke (prompt_for c analysis query)],
     groq_chat E (prompt_for c analysis query)).
Proof.
  destruct c; unfold get_response, prompt_for.
  - apply get_general_response_run.
  - apply (get_medical_response_run E (PyStr analysis) query).
  - apply get_product_response_run.
Qed.

(* ================================================================= *)
(** ** The orchestrator *)

(** The branch of a category: one tag extraction, then, unless the
    Medical collapse raises, one generation on the category's prompt. *)
Lemma respond_run (E : Env) (c : Category) (image_bytes : list byte)
      (user_query : string) :
  respond E (category_option c) image_bytes user_query
  = let request := tag_request E (endpoint_model (secrets E) c) image_bytes in
    match analysis_text E c (extracted E (requests_post E request)) with
    | Raise e => ([HttpPost request], Raise e)
    | Ok text =>
        ([HttpPost request; GroqInvoke (prompt_for c text user_query)],
         match groq_chat E (prompt_for c text user_query) with
         | Ok response => Ok (response, disclaimer_of c)
         | Raise e => Raise e
         end)
    end.
Proof.
  destruct c; unfold respond, category_option; cbn [String.eqb Ascii.eqb Bool.eqb];
    cbv zeta; rewrite analyze_image_run, bind_ok;
    cbn [analysis_text endpoint_model prompt_for disclaimer_of].
  - rewrite get_general_response_run.
    destruct (groq_chat E _); reflexivity.
  - unfold lift. destruct (tags_of _) as [tags|e]; [|reflexivity].
    rewrite bind_ok, get_medical_response_run.
    destruct (groq_chat E _); reflexivity.
  - rewrite get_product_response_run.
    destruct (groq_chat E _); reflexivity.
Qed.

(** A submission whose image [st.image] displays: its trace is that
    call, the spinner and the pipeline, and it returns. *)
Lemma submit_run (E : Env) (c : Category) (image_bytes : list byte)
      (user_query : string) :
  st_image E image_bytes = Ok tt ->
  submit E (category_option c) image_bytes user_query
  = (StImage image_bytes "Uploaded Image" true :: StSpinner "Analyzing..."
       :: pipeline E c image_bytes user_query,
     Ok tt).
Proof.
  intros Himg.
  unfold submit, show_image, pipeline, emit. rewrite Himg, !bind_ok, respond_run.
  cbv zeta.
  destruct (analysis_text E c _) as [text|e].
  - destruct (groq_chat E _) as [response|e].
    + rewrite bind_ok, !bind_ok. cbn [fst snd].
      unfold result_block, displayed.
      destruct c; reflexivity.
    + reflexivity.
  - reflexivity.
Qed.

(** A submission whose image [st.image] refuses: the exception leaves
    it after that one call. *)
Lemma submit_image_error (E : Env) (category : string) (image_bytes : list byte)
      (user_query : string) (e : PyExn) :
  st_image E image_bytes = Raise e ->
  submit E category image_bytes user_query
  = ([StImage image_bytes "Uploaded Image" true], Raise e).
Proof.
  intros Himg. unfold submit, show_image. rewrite Himg. reflexivity.
Qed.

(** A run with a query and an image that [st.image] displays. *)
Lemma app_run (E : Env) (c : Category) (image_bytes : list byte)
      (user_query : string) :
  user_query <> "" ->
  st_image E image_bytes = Ok tt ->
  app E c (Some image_bytes) user_query
  = ((page_head
        ++ StImage image_bytes "Uploaded Image" true :: StSpinner "Analyzing..."
             :: pipeline E c image_bytes user_query
        ++ sidebar)%list,
     Ok tt).
Proof.
  intros Hq Himg. unfold app, emit. cbv zeta.
  apply String.eqb_neq in Hq. rewrite Hq, (submit_run _ _ _ _ Himg).
  rewrite !bind_ok. cbn [trace outcome fst snd].
  reflexivity.
Qed.

(** A run with a query and an image that [st.image] refuses: it ends
    there, uncaught, before the spinner and without the sidebar. *)
Lemma app_image_error (E : Env) (c : Category) (image_bytes : list byte)
      (user_query : string) (e : PyExn) :
  user_query <> "" ->
  st_image E image_bytes = Raise e ->
  app E c (Some image_bytes) user_query
  = ((page_head ++ [StImage image_bytes "Uploaded Image" true])%list, Raise e).
Proof.
  intros Hq Himg. unfold app, emit. cbv zeta.
  apply String.eqb_neq in Hq. rewrite Hq, (submit_image_error _ _ _ _ _ Himg).
  rewrite !bind_ok. reflexivity.
Qed.

(** A run without an image or without a query. *)
Lemma app_idle (E : Env) (c : Category) (uploaded_file : option (list byte))
      (user_query : string) :
  uploaded_file = None \/ user_query = "" ->
  app E c uploaded_file user_query = ((page_head ++ sidebar)%list, Ok tt).
Proof.
  intros [-> | ->]; [|destruct uploaded_file]; reflexivity.
Qed.

(** The three kinds of run. *)
Lemma app_cases (E : Env) (c : Category) (uploaded_file : option (list byte))
      (user_query : string) :
  (uploaded_file = None \/ user_query = "")
  \/ (exists image_bytes e,
        uploaded_file = Some image_bytes /\ user_query <> ""
        /\ st_image E image_bytes = Raise e)
  \/ (exists image_bytes,
        uploaded_file = Some image_bytes /\ user_query <> ""
        /\ st_image E image_bytes = Ok tt).
Proof.
  destruct uploaded_file as [image_bytes|]; [|now left; left].
  destruct (String.eqb_spec user_query "") as [Hq|Hq]; [now left; right|].
  right. destruct (st_image E image_bytes) as [[]|e] eqn:Himg.
  - right. now exists image_bytes.
  - left. now exists image_bytes, e.
Qed.

(* ================================================================= *)
(** ** Reading the trace of a run *)

#[local] Ltac read_run Hq Himg :=
  rewrite (app_run _ _ _ _ Hq Himg);
  cbv [trace fst requests_of prompts_of written_of warnings_of errors_of
       page_head sidebar];
  rewrite flat_map_app; cbn [flat_map List.app];
  rewrite flat_map_app; cbn [flat_map List.app];
  apply app_nil_r.

#[local] Ltac read_pipeline :=
  unfold pipeline; cbv zeta;
  destruct (analysis_text _ _ _) as [?text|?e]; [|reflexivity];
  destruct (groq_chat _ _) as [?response|?e]; [|reflexivity];
  match goal with c : Category |- _ => destruct c end; reflexivity.

Section Readers.
Context (E : Env) (c : Category) (image_bytes : list byte) (user_query : string).
Hypothesis query_given : user_query <> "".
Hypothesis image_shown : st_image E image_bytes = Ok tt.

Let run := trace (app E c (Some image_bytes) user_query).
Let request := tag_request E (endpoint_model (secrets E) c) image_bytes.
Let analysis := analysis_text E c (extracted E (requests_post E request)).

Lemma run_requests : requests_of run = requests_of (pipeline E c image_bytes user_query).
Proof. subst run. read_run query_given image_shown. Qed.

Lemma run_prompts : prompts_of run = prompts_of (pipeline E c image_bytes user_query).
Proof. subst run. read_run query_given image_shown. Qed.

Lemma run_written : written_of run = written_of (pipeline E c image_bytes user_query).
Proof. subst run. read_run query_given image_shown. Qed.

Lemma run_warnings : warnings_of run = warnings_of (pipeline E c image_bytes user_query).
Proof. subst run. read_run query_given image_shown. Qed.

Lemma run_errors : errors_of run = errors_of (pipeline E c image_bytes user_query).
Proof. subst run. read_run query_given image_shown. Qed.

Lemma pipeline_requests :
  requests_of (pipeline E c image_bytes user_query) = [request].
Proof. subst request. read_pipeline. Qed.

Lemma pipeline_prompts :
  prompts_of (pipeline E c image_bytes user_query)
  = match analysis with
    | Ok text => [prompt_for c text user_query]
    | Raise _ => []
    end.
Proof. subst analysis request. read_pipeline. Qed.

Lemma pipeline_written :
  written_of (pipeline E c image_bytes user_query)
  = match analysis with
    | Ok text =>
        match groq_chat E (prompt_for c text user_query) with
        | Ok response => [response]
        | Raise _ => []
        end
    | Raise _ => []
    end.
Proof. subst analysis request. read_pipeline. Qed.

Lemma pipeline_warnings :
  warnings_of (pipeline E c image_bytes user_query)
  = match analysis with
    | Ok text =>
        match groq_chat E (prompt_for c text user_query) with
        | Ok _ => displayed (disclaimer_of c)
        | Raise _ => []
        end
    | Raise _ => []
    end.
Proof. subst analysis request. read_pipeline. Qed.

Lemma pipeline_errors :
  errors_of (pipeline E c image_bytes user_query)
  = match analysis with
    | Ok text =>
        match groq_chat E (prompt_for c text user_query) with
        | Ok _ => []
        | Raise e => [analysis_failed E e]
        end
    | Raise e => [analysis_failed E e]
    end.
Proof. subst analysis request. read_pipeline. Qed.

End Readers.

(* ================================================================= *)
(** ** The Medical collapse of a tag list *)

Lemma comprehension_labels (tags : list (string * float)) :
  comprehension (fun item => getitem item "label") (map tag_object tags)
  = Ok (map PyStr (map fst tags)).
Proof.
  induction tags as [|tag tags IH]; [reflexivity|].
  cbn [map comprehension]. rewrite IH. reflexivity.
Qed.

Lemma join_items_strings (index : nat) (ss : list string) :
  join_items index (map PyStr ss) = Ok ss.
Proof.
  revert index. induction ss as [|s ss IH]; intros index; [reflexivity|].
  cbn [map join_items]. rewrite IH. reflexivity.
Qed.

Lemma tags_of_tag_objects (tags : list (string * float)) :
  tags_of (PyList (map tag_object tags))
  = Ok (PyStr (String.concat ", " (map fst tags))).
Proof.
  unfold tags_of, str_join.
  rewrite comprehension_labels, join_items_strings. reflexivity.
Qed.

(** An item without a ["label"] makes the comprehension raise. *)
Lemma comprehension_unlabelled (items : list PyVal) :
  forallb has_label items = false ->
  exists e, comprehension (fun item => getitem item "label") items = Raise e.
Proof.
  induction items as [|item items IH]; [discriminate|].
  cbn [forallb comprehension]. intros H.
  destruct (getitem item "label") as [label|e] eqn:Hitem; [|now exists e].
  assert (Hl : has_label item = true).
  { destruct item; try discriminate Hitem.
    cbn [getitem has_label] in *. destruct (dict_get entries "label"); [reflexivity|discriminate]. }
  rewrite Hl in H. destruct (IH H) as [e He]. rewrite He. now exists e.
Qed.

(** The text that reaches composition when the Tag Extractor returned a
    string. *)
Lemma analysis_text_str (E : Env) (c : Category) (s : string) :
  analysis_text E c (PyStr s) = Ok s.
Proof. destruct c; reflexivity. Qed.

(** The text that reaches composition when the Tag Extractor returned
    the empty list. *)
Lemma analysis_text_empty (E : Env) (c : Category) :
  analysis_text E c (PyList []) = Ok (match c with Medical => "" | _ => "[]" end).
Proof. destruct c; reflexivity. Qed.

(* ================================================================= *)
(** ** Inverting a run *)

Lemma in_requests_of (r : Request) (t : list Event) :
  In (HttpPost r) t -> In r (requests_of t).
Proof.
  intros H. unfold requests_of. apply in_flat_map.
  exists (HttpPost r). split; [exact H | now left].
Qed.

Lemma in_prompts_of (p : string) (t : list Event) :
  In (GroqInvoke p) t -> In p (prompts_of t).
Proof.
  intros H. unfold prompts_of. apply in_flat_map.
  exists (GroqInvoke p). split; [exact H | now left].
Qed.

(** A run that posts a request has a file and a query, [st.image] has
    returned, and the request is the tag extraction of the category. *)
Lemma run_request_inv (E : Env) (c : Category) (uploaded_file : option (list byte))
      (user_query : string) (request : Request) :
  In (HttpPost request) (trace (app E c uploaded_file user_query)) ->
  exists image_bytes,
    uploaded_file = Some image_bytes /\ user_query <> ""
    /\ st_image E image_bytes = Ok tt
    /\ request = tag_request E (endpoint_model (secrets E) c) image_bytes.
Proof.
  intros Hin. apply in_requests_of in Hin.
  destruct (app_cases E c uploaded_file user_query)
    as [Hidle | [(image_bytes & e & -> & Hq & Himg) | (image_bytes & -> & Hq & Himg)]].
  - rewrite (app_idle _ _ _ _ Hidle) in Hin. destruct Hin.
  - rewrite (app_image_error _ _ _ _ _ Hq Himg) in Hin. destruct Hin.
  - rewrite (run_requests _ _ _ _ Hq Himg), pipeline_requests in Hin.
    destruct Hin as [<-|[]]. exists image_bytes. now repeat split.
Qed.

(** A run posts the tag extraction of an image exactly as the run on
    that image. *)
Lemma run_posts_inv (E : Env) (c : Category) (image_bytes : list byte)
      (user_query : string) (request : Request) :
  In (HttpPost request) (trace (app E c (Some image_bytes) user_query)) ->
  user_query <> "" /\ st_image E image_bytes = Ok tt.
Proof.
  intros Hin.
  destruct (run_request_inv _ _ _ _ _ Hin) as (image & Hfile & Hq & Himg & _).
  inversion Hfile; subst image. now split.
Qed.

(** No result block holds a call to the model. *)
Lemma result_block_no_prompt (c : Category) (response prompt : string) :
  ~ In (GroqInvoke prompt) (result_block c response).
Proof.
  unfold result_block. intros [H|[H|H]]; try discriminate H.
  apply in_map_iff in H. destruct H as [d [H _]]. discriminate H.
Qed.

(** The prompt of a run is the prompt of its pipeline: [st.image] has
    returned, and the analysis text behind the prompt was computed
    without an exception. *)
Lemma run_prompt_inv (E : Env) (c : Category) (uploaded_file : option (list byte))
      (user_query prompt : string) :
  In (GroqInvoke prompt) (trace (app E c uploaded_file user_query)) ->
  exists image_bytes text,
    uploaded_file = Some image_bytes /\ user_query <> ""
    /\ st_image E image_bytes = Ok tt
    /\ analysis_text E c
         (extracted E (requests_post E
            (tag_request E (endpoint_model (secrets E) c) image_bytes))) = Ok text
    /\ prompt = prompt_for c text user_query.
Proof.
  intros Hin. apply in_prompts_of in Hin.
  destruct (app_cases E c uploaded_file user_query)
    as [Hidle | [(image_bytes & e & -> & Hq & Himg) | (image_bytes & -> & Hq & Himg)]].
  - rewrite (app_idle _ _ _ _ Hidle) in Hin. destruct Hin.
  - rewrite (app_image_error _ _ _ _ _ Hq Himg) in Hin. destruct Hin.
  - rewrite (run_prompts _ _ _ _ Hq Himg), pipeline_prompts in Hin.
    destruct (analysis_text E c _) as [text|e] eqn:Htext; [|destruct Hin].
    destruct Hin as [<-|[]]. exists image_bytes, text. now repeat split.
Qed.

#[local] Ltac in_trace :=
  vm_compute; repeat first [ left; reflexivity | right ].

(* ================================================================= *)
(** ** Properties of the pipeline *)

(** C1.  In a Medical run that posts the tag extraction, when the
    endpoint answers 200 with a list of [{label, score}] objects, the
    list is collapsed into the labels in list order joined with [", "],
    and that string is what fills the tags slot of the prompt sent to
    the model. *)
Theorem medical_tags_are_comma_joined
        (E : Env) (tags : list (string * float)) (image_bytes : list byte)
        (user_query : string) :
  In (HttpPost (tag_request E (MEDICAL_MODEL (secrets E)) image_bytes))
     (trace (app E Medical (Some image_bytes) user_query)) ->
  requests_post E (tag_request E (MEDICAL_MODEL (secrets E)) image_bytes)
    = answers (PyList (map tag_object tags)) ->
  tags_of (PyList (map tag_object tags))
    = Ok (PyStr (String.concat ", " (map fst tags)))
  /\ prompts_of (trace (app E Medical (Some image_bytes) user_query))
     = [medical_prompt (String.concat ", " (map fst tags)) user_query].
Proof.
  intros Hin Hpost. destruct (run_posts_inv _ _ _ _ _ Hin) as [Hq Himg].
  split; [apply tags_of_tag_objects|].
  rewrite (run_prompts _ _ _ _ Hq Himg), pipeline_prompts.
  cbn [endpoint_model]. rewrite Hpost.
  unfold answers, extracted. cbn [status_code json Z.eqb Pos.eqb analysis_text].
  rewrite tags_of_tag_objects. reflexivity.
Qed.

(** C1 on the tags of the specification: the string passed into
    composition is ["rash, erythema"]. *)
Lemma medical_tags_rash_erythema :
  tags_of rash_tags = Ok (PyStr "rash, erythema")
  /\ prompts_of (trace (app rash_env Medical (Some demo_image) "What is this?"))
     = [medical_prompt "rash, erythema" "What is this?"].
Proof.
  apply (medical_tags_are_comma_joined
           rash_env [("rash", 0.9%float); ("erythema", 0.7%float)]
           demo_image "What is this?").
  - in_trace.
  - reflexivity.
Defined.

(** C2.  In a run that posts the tag extraction, when the POST raises,
    [analyze_image] returns the string ["Analysis error: " ++ str(e)]
    instead of raising; for every category that string is in the one
    prompt sent to the model, and when the model answers, its text is
    written and no failure is shown. *)
Theorem transport_error_becomes_analysis_text
        (E : Env) (c : Category) (image_bytes : list byte) (user_query : string)
        (e : PyExn) :
  In (HttpPost (tag_request E (endpoint_model (secrets E) c) image_bytes))
     (trace (app E c (Some image_bytes) user_query)) ->
  requests_post E (tag_request E (endpoint_model (secrets E) c) image_bytes)
    = Raise e ->
  outcome (analyze_image E image_bytes (endpoint_model (secrets E) c))
    = Ok (PyStr ("Analysis error: " ++ exn_str E e))
  /\ exists prompt,
       prompts_of (trace (app E c (Some image_bytes) user_query)) = [prompt]
       /\ contains ("Analysis error: " ++ exn_str E e) prompt = true
       /\ forall response,
            groq_chat E prompt = Ok response ->
            written_of (trace (app E c (Some image_bytes) user_query)) = [response]
            /\ errors_of (trace (app E c (Some image_bytes) user_query)) = [].
Proof.
  intros Hin Hpost. destruct (run_posts_inv _ _ _ _ _ Hin) as [Hq Himg]. split.
  - rewrite analyze_image_run, Hpost. reflexivity.
  - exists (prompt_for c (analysis_error E e) user_query).
    rewrite (run_prompts _ _ _ _ Hq Himg), (run_written _ _ _ _ Hq Himg),
      (run_errors _ _ _ _ Hq Himg).
    rewrite pipeline_prompts, pipeline_written, pipeline_errors, Hpost.
    cbn [extracted]. rewrite analysis_text_str.
    split; [reflexivity|]. split; [apply prompt_for_contains_analysis|].
    intros response Hgroq. rewrite Hgroq. split; reflexivity.
Qed.

(** C2 on a read timeout in the Product category. *)
Lemma transport_error_timeout :
  outcome (analyze_image timeout_env demo_image (PRODUCT_MODEL demo_secrets))
    = Ok (PyStr "Analysis error: Read timed out. (read timeout=30)")
  /\ exists prompt,
       prompts_of (trace (app timeout_env Product (Some demo_image) "How much is it?"))
         = [prompt]
       /\ contains "Analysis error: Read timed out. (read timeout=30)" prompt = true
       /\ forall response,
            groq_chat timeout_env prompt = Ok response ->
            written_of (trace (app timeout_env Product (Some demo_image) "How much is it?"))
              = [response]
            /\ errors_of (trace (app timeout_env Product (Some demo_image) "How much is it?"))
               = [].
Proof.
  apply (transport_error_becomes_analysis_text
           timeout_env Product demo_image "How much is it?"
           (LibraryError Requests "Read timed out. (read timeout=30)")).
  - in_trace.
  - reflexivity.
Defined.

(** C3.  In a run that posts the tag extraction, when the endpoint
    answers with a status other than 200, [analyze_image] returns the
    empty list (a value, not an exception and not an error string); for
    every category the run goes on to compose a prompt and call the
    model once, and when the model answers, its text is written and no
    failure is shown. *)
Theorem non_200_degrades_to_empty_tags
        (E : Env) (c : Category) (image_bytes : list byte) (user_query : string)
        (response : Response) :
  In (HttpPost (tag_request E (endpoint_model (secrets E) c) image_bytes))
     (trace (app E c (Some image_bytes) user_query)) ->
  requests_post E (tag_request E (endpoint_model (secrets E) c) image_bytes)
    = Ok response ->
  status_code response <> 200%Z ->
  outcome (analyze_image E image_bytes (endpoint_model (secrets E) c)) = Ok (PyList [])
  /\ is_error_string (PyList []) = false
  /\ exists prompt,
       prompts_of (trace (app E c (Some image_bytes) user_query)) = [prompt]
       /\ forall answer,
            groq_chat E prompt = Ok answer ->
            written_of (trace (app E c (Some image_bytes) user_query)) = [answer]
            /\ errors_of (trace (app E c (Some image_bytes) user_query)) = [].
Proof.
  intros Hin Hpost Hstatus. destruct (run_posts_inv _ _ _ _ _ Hin) as [Hq Himg].
  apply Z.eqb_neq in Hstatus.
  assert (Hx : extracted E (Ok response) = PyList []).
  { unfold extracted. rewrite Hstatus. reflexivity. }
  split; [|split; [reflexivity|]].
  - rewrite analyze_image_run, Hpost, Hx. reflexivity.
  - exists (prompt_for c (match c with Medical => "" | _ => "[]" end) user_query).
    rewrite (run_prompts _ _ _ _ Hq Himg), (run_written _ _ _ _ Hq Himg),
      (run_errors _ _ _ _ Hq Himg).
    rewrite pipeline_prompts, pipeline_written, pipeline_errors, Hpost, Hx.
    rewrite analysis_text_empty.
    split; [reflexivity|].
    intros answer Hgroq. rewrite Hgroq. split; reflexivity.
Qed.

(** C3 on an HTTP 503 in the General category. *)
Lemma non_200_service_unavailable :
  outcome (analyze_image unavailable_env demo_image (GENERAL_MODEL demo_secrets))
    = Ok (PyList [])
  /\ is_error_string (PyList []) = false
  /\ exists prompt,
       prompts_of (trace (app unavailable_env General (Some demo_image) "What is this?"))
         = [prompt]
       /\ forall answer,
            groq_chat unavailable_env prompt = Ok answer ->
            written_of (trace (app unavailable_env General (Some demo_image) "What is this?"))
              = [answer]
            /\ errors_of (trace (app unavailable_env General (Some demo_image) "What is this?"))
               = [].
Proof.
  apply (non_200_degrades_to_empty_tags
           unavailable_env General demo_image "What is this?"
           {| status_code := 503;
              json := Ok (PyDict [("error", PyStr "Service Unavailable")]) |}).
  - in_trace.
  - reflexivity.
  - discriminate.
Defined.

(** C4.  If the call to the model raises, the exception is caught by
    the [except] of the submission: the run shows exactly one failure
    message, writes no result, shows no disclaimer and does not show the
    results heading. *)
Theorem generation_failure_fails_the_submission
        (E : Env) (c : Category) (uploaded_file : option (list byte))
        (user_query prompt : string) (e : PyExn) :
  In (GroqInvoke prompt) (trace (app E c uploaded_file user_query)) ->
  groq_chat E prompt = Raise e ->
  errors_of (trace (app E c uploaded_file user_query)) = ["Analysis failed: " ++ exn_str E e]
  /\ written_of (trace (app E c uploaded_file user_query)) = []
  /\ warnings_of (trace (app E c uploaded_file user_query)) = []
  /\ ~ In "Analysis Results" (subheaders_of (trace (app E c uploaded_file user_query))).
Proof.
  intros Hin Hgroq.
  destruct (run_prompt_inv _ _ _ _ _ Hin)
    as (image_bytes & text & -> & Hq & Himg & Htext & ->).
  rewrite (run_errors _ _ _ _ Hq Himg), (run_written _ _ _ _ Hq Himg),
    (run_warnings _ _ _ _ Hq Himg).
  rewrite pipeline_errors, pipeline_written, pipeline_warnings, Htext, Hgroq.
  repeat split.
  rewrite (app_run _ _ _ _ Hq Himg). unfold pipeline. cbv zeta. rewrite Htext, Hgroq.
  cbn. intros [H|[]]. discriminate H.
Qed.

(** C4 when the Groq client cannot connect. *)
Lemma generation_failure_groq_down :
  errors_of (trace (app groq_down_env General (Some demo_image) "What is this?"))
    = ["Analysis failed: Connection error."]
  /\ written_of (trace (app groq_down_env General (Some demo_image) "What is this?")) = []
  /\ warnings_of (trace (app groq_down_env General (Some demo_image) "What is this?")) = []
  /\ ~ In "Analysis Results"
         (subheaders_of (trace (app groq_down_env General (Some demo_image) "What is this?"))).
Proof.
  apply (generation_failure_fails_the_submission
           groq_down_env General (Some demo_image) "What is this?"
           (general_prompt "{'description': 'a red bicycle'}" "What is this?")
           (LibraryError Groq "Connection error.")).
  - vm_compute. tauto.
  - reflexivity.
Defined.

(** C5.  For each of the three categories, every analysis text and
    every query, the chain sends the model exactly one prompt, and both
    the analysis text and the query occur in it as they are. *)
Theorem prompt_embeds_analysis_and_query
        (E : Env) (c : Category) (analysis query : string) :
  exists prompt,
    trace (get_response E c analysis query) = [GroqInvoke prompt]
    /\ contains analysis prompt = true
    /\ contains query prompt = true.
Proof.
  exists (prompt_for c analysis query).
  rewrite get_response_run. split; [reflexivity|]. split.
  - apply prompt_for_contains_analysis.
  - apply prompt_for_contains_query.
Qed.


(** C7, as the code has it.  On a 200 response [analyze_image] returns
    what [response.json()] returns, unchanged, when decoding succeeds (a
    list stays a list, any other value stays that value); when decoding
    raises, the exception is caught like a transport failure and the
    result is the string ["Analysis error: " ++ str(e)]. *)
Theorem ok_response_returns_decoded_body_or_error
        (E : Env) (image_bytes : list byte) (model_name : string)
        (response : Response) :
  requests_post E (tag_request E model_name image_bytes) = Ok response ->
  status_code response = 200%Z ->
  outcome (analyze_image E image_bytes model_name)
  = match json response with
    | Ok body => Ok body
    | Raise e => Ok (PyStr ("Analysis error: " ++ exn_str E e))
    end.
Proof.
  intros Hpost Hstatus.
  rewrite analyze_image_run, Hpost. unfold extracted, outcome, snd.
  rewrite Hstatus. cbn [Z.eqb Pos.eqb]. destruct (json response); reflexivity.
Qed.

(** The amended C7 on the two tags of the specification. *)
Lemma ok_response_rash_tags :
  outcome (analyze_image rash_env demo_image (MEDICAL_MODEL demo_secrets)) = Ok rash_tags.
Proof.
  apply (ok_response_returns_decoded_body_or_error
           rash_env demo_image (MEDICAL_MODEL demo_secrets)
           {| status_code := 200; json := Ok rash_tags |}).
  - reflexivity.
  - reflexivity.
Defined.

(** C7 as stated fails: a 200 response whose body is not JSON makes
    [response.json()] raise inside the [try], and the Tag Extractor
    returns the error string. *)
Lemma ok_response_may_yield_error_string :
  ~ (forall (E : Env) (image_bytes : list byte) (model_name : string)
            (response : Response),
        requests_post E (tag_request E model_name image_bytes) = Ok response ->
        status_code response = 200%Z ->
        exists v, outcome (analyze_image E image_bytes model_name) = Ok v
                  /\ is_error_string v = false).
Proof.
  intros claim.
  destruct (claim not_json_env demo_image (GENERAL_MODEL demo_secrets)
                  {| status_code := 200;
                     json := Raise (LibraryError JsonDecoder
                                      "Expecting value: line 1 column 1 (char 0)") |}
                  eq_refl eq_refl) as [v [Hv Herr]].
  vm_compute in Hv. inversion Hv; subst v. vm_compute in Herr. discriminate Herr.
Qed.

(** C8.  Without an uploaded file, or with an empty query, the run is
    the page head and the sidebar: no image is echoed, no request is
    posted, the model is not called, and no result, disclaimer or
    failure message is shown. *)
Theorem incomplete_input_is_a_no_op
        (E : Env) (c : Category) (uploaded_file : option (list byte))
        (user_query : string) :
  uploaded_file = None \/ user_query = "" ->
  app E c uploaded_file user_query = ((page_head ++ sidebar)%list, Ok tt)
  /\ images_of (trace (app E c uploaded_file user_query)) = []
  /\ requests_of (trace (app E c uploaded_file user_query)) = []
  /\ prompts_of (trace (app E c uploaded_file user_query)) = []
  /\ written_of (trace (app E c uploaded_file user_query)) = []
  /\ warnings_of (trace (app E c uploaded_file user_query)) = []
  /\ errors_of (trace (app E c uploaded_file user_query)) = [].
Proof.
  intros H. rewrite (app_idle E c uploaded_file user_query H).
  repeat split.
Qed.

(** C8 on an image with an empty query. *)
Lemma incomplete_input_empty_query :
  app rash_env Medical (Some demo_image) "" = ((page_head ++ sidebar)%list, Ok tt)
  /\ images_of (trace (app rash_env Medical (Some demo_image) "")) = []
  /\ requests_of (trace (app rash_env Medical (Some demo_image) "")) = []
  /\ prompts_of (trace (app rash_env Medical (Some demo_image) "")) = []
  /\ written_of (trace (app rash_env Medical (Some demo_image) "")) = []
  /\ warnings_of (trace (app rash_env Medical (Some demo_image) "")) = []
  /\ errors_of (trace (app rash_env Medical (Some demo_image) "")) = [].
Proof.
  apply (incomplete_input_is_a_no_op rash_env Medical (Some demo_image) "").
  right. reflexivity.
Defined.

(** C9.  A tag extraction posts exactly one request: to the base URL
    followed by the model identifier, with the bearer token in the
    [Authorization] header, the image bytes as the body and a timeout of
    30; every request a run posts is that request for the uploaded file
    and the model of the selected category, and it is the only one of
    the run. *)
Theorem tag_extraction_is_one_post
        (E : Env) (c : Category) (uploaded_file : option (list byte))
        (image_bytes : list byte) (model_name user_query : string)
        (request : Request) :
  In (HttpPost request) (trace (app E c uploaded_file user_query)) ->
  requests_of (trace (analyze_image E image_bytes model_name))
    = [ {| url := HF_API_URL (secrets E) ++ model_name;
           headers := [("Authorization", "Bearer " ++ HF_TOKEN (secrets E))];
           data := image_bytes;
           timeout := 30 |} ]
  /\ exists uploaded,
       uploaded_file = Some uploaded
       /\ request
          = {| url := HF_API_URL (secrets E) ++ endpoint_model (secrets E) c;
               headers := [("Authorization", "Bearer " ++ HF_TOKEN (secrets E))];
               data := uploaded;
               timeout := 30 |}
       /\ requests_of (trace (app E c uploaded_file user_query)) = [request].
Proof.
  intros Hin. split.
  - rewrite analyze_image_run. reflexivity.
  - destruct (run_request_inv _ _ _ _ _ Hin) as (uploaded & -> & Hq & Himg & ->).
    exists uploaded. split; [reflexivity|]. split; [reflexivity|].
    rewrite (run_requests _ _ _ _ Hq Himg), pipeline_requests. reflexivity.
Qed.

(** C9 on a Product submission. *)
Lemma tag_extraction_product_request :
  requests_of (trace (analyze_image rash_env demo_image "google/vit-base-patch16-224"))
    = [ {| url := "https://api-inference.huggingface.co/models/google/vit-base-patch16-224";
           headers := [("Authorization", "Bearer hf_demo")];
           data := demo_image;
           timeout := 30 |} ]
  /\ exists uploaded,
       Some demo_image = Some uploaded
       /\ tag_request rash_env "google/vit-base-patch16-224" demo_image
          = {| url := "https://api-inference.huggingface.co/models/google/vit-base-patch16-224";
               headers := [("Authorization", "Bearer hf_demo")];
               data := uploaded;
               timeout := 30 |}
       /\ requests_of (trace (app rash_env Product (Some demo_image) "How much is it?"))
          = [tag_request rash_env "google/vit-base-patch16-224" demo_image].
Proof.
  apply (tag_extraction_is_one_post
           rash_env Product (Some demo_image) demo_image
           "google/vit-base-patch16-224" "How much is it?"
           (tag_request rash_env "google/vit-base-patch16-224" demo_image)).
  in_trace.
Defined.

(** C10.  In a Medical run that posts the tag extraction, when the
    endpoint answers 200 with a list in which some item is not a dict
    with a ["label"] key, the comprehension raises before anything is
    composed: the model is not called, no result is written, and the run
    shows the failure message of the orchestrator. *)
Theorem unlabelled_items_fail_the_submission
        (E : Env) (image_bytes : list byte) (user_query : string)
        (items : list PyVal) :
  In (HttpPost (tag_request E (MEDICAL_MODEL (secrets E)) image_bytes))
     (trace (app E Medical (Some image_bytes) user_query)) ->
  requests_post E (tag_request E (MEDICAL_MODEL (secrets E)) image_bytes)
    = answers (PyList items) ->
  forallb has_label items = false ->
  exists e,
    tags_of (PyList items) = Raise e
    /\ errors_of (trace (app E Medical (Some image_bytes) user_query))
       = ["Analysis failed: " ++ exn_str E e]
    /\ prompts_of (trace (app E Medical (Some image_bytes) user_query)) = []
    /\ written_of (trace (app E Medical (Some image_bytes) user_query)) = [].
Proof.
  intros Hin Hpost Hitems. destruct (run_posts_inv _ _ _ _ _ Hin) as [Hq Himg].
  destruct (comprehension_unlabelled items Hitems) as [e He].
  assert (Htags : tags_of (PyList items) = Raise e).
  { unfold tags_of. rewrite He. reflexivity. }
  exists e. split; [exact Htags|].
  rewrite (run_errors _ _ _ _ Hq Himg), (run_prompts _ _ _ _ Hq Himg),
    (run_written _ _ _ _ Hq Himg).
  rewrite pipeline_errors, pipeline_prompts, pipeline_written.
  cbn [endpoint_model]. rewrite Hpost.
  unfold answers, extracted. cbn [status_code json Z.eqb Pos.eqb analysis_text].
  rewrite Htags. repeat split.
Qed.

(** C10 on a list whose second item has a score and no label. *)
Lemma unlabelled_items_missing_label :
  exists e,
    tags_of (PyList unlabelled_tags) = Raise e
    /\ errors_of (trace (app unlabelled_env Medical (Some demo_image) "What is this?"))
       = ["Analysis failed: " ++ exn_str unlabelled_env e]
    /\ prompts_of (trace (app unlabelled_env Medical (Some demo_image) "What is this?")) = []
    /\ written_of (trace (app unlabelled_env Medical (Some demo_image) "What is this?")) = [].
Proof.
  apply (unlabelled_items_fail_the_submission
           unlabelled_env demo_image "What is this?" unlabelled_tags).
  - in_trace.
  - reflexivity.
  - reflexivity.
Defined.

(* ================================================================= *)
(** ** Further properties: the Medical collapse *)

(** ** Further properties: the Medical collapse *)

Lemma getitem_label_str (item : PyVal) (s : string) :
  getitem item "label" = Ok (PyStr s) -> label_of item = Some s.
Proof.
  destruct item; try discriminate. cbn [getitem label_of].
  destruct (dict_get entries "label") as [v|]; [|discriminate].
  intros H. inversion H. reflexivity.
Qed.

Lemma label_of_getitem (item : PyVal) (s : string) :
  label_of item = Some s -> getitem item "label" = Ok (PyStr s).
Proof.
  destruct item; try discriminate. cbn [getitem label_of].
  destruct (dict_get entries "label") as [v|]; [|discriminate].
  destruct v; try discriminate. intros H. inversion H. reflexivity.
Qed.

Lemma comprehension_well_tagged (items : list PyVal) :
  forallb well_tagged items = true ->
  comprehension (fun item => getitem item "label") items
  = Ok (map PyStr (labels_of items)).
Proof.
  induction items as [|item items IH]; [reflexivity|].
  cbn [forallb]. intros H. apply andb_prop in H. destruct H as [Hitem Hrest].
  unfold well_tagged in Hitem. destruct (label_of item) as [s|] eqn:Hl; [|discriminate].
  cbn [comprehension]. rewrite (label_of_getitem _ _ Hl), (IH Hrest).
  unfold labels_of. cbn [flat_map]. rewrite Hl. reflexivity.
Qed.

Lemma join_after_comprehension (items : list PyVal) :
  forall (labels : list PyVal) (index : nat) (ss : list string),
    comprehension (fun item => getitem item "label") items = Ok labels ->
    join_items index labels = Ok ss ->
    forallb well_tagged items = true.
Proof.
  induction items as [|item items IH]; intros labels index ss Hc Hj; [reflexivity|].
  cbn [comprehension] in Hc.
  destruct (getitem item "label") as [label|] eqn:Hitem; [|discriminate].
  destruct (comprehension _ items) as [rest|] eqn:Hrest; [|discriminate].
  inversion Hc; subst labels. cbn [join_items] in Hj.
  destruct label; try discriminate.
  destruct (join_items (S index) rest) as [ss'|] eqn:Hj'; [|discriminate].
  cbn [forallb]. unfold well_tagged at 1.
  rewrite (getitem_label_str _ _ Hitem). cbn [andb].
  exact (IH rest (S index) ss' eq_refl Hj').
Qed.

Lemma tags_of_well_tagged (items : list PyVal) :
  forallb well_tagged items = true ->
  tags_of (PyList items) = Ok (PyStr (String.concat ", " (labels_of items))).
Proof.
  intros H. unfold tags_of, str_join.
  rewrite (comprehension_well_tagged _ H), join_items_strings. reflexivity.
Qed.

Lemma tags_of_ok_well_tagged (items : list PyVal) (v : PyVal) :
  tags_of (PyList items) = Ok v -> forallb well_tagged items = true.
Proof.
  unfold tags_of, str_join. intros H.
  destruct (comprehension _ items) as [labels|] eqn:Hc; [|discriminate].
  destruct (join_items 0 labels) as [ss|] eqn:Hj; [|discriminate].
  exact (join_after_comprehension items labels 0 ss Hc Hj).
Qed.

(** X1.  The Medical collapse of a list succeeds exactly when every
    item is a dict whose ["label"] is a [str]; the result is then the
    labels in list order joined with [", "], whatever other keys the
    items carry.  In every other case it raises. *)
Theorem tags_of_list_succeeds_iff_labels_are_strings (items : list PyVal) :
  match tags_of (PyList items) with
  | Ok v =>
      forallb well_tagged items = true
      /\ v = PyStr (String.concat ", " (labels_of items))
  | Raise _ => forallb well_tagged items = false
  end.
Proof.
  destruct (tags_of (PyList items)) as [v|e] eqn:Htags.
  - pose proof (tags_of_ok_well_tagged _ _ Htags) as Hall.
    split; [exact Hall|].
    rewrite (tags_of_well_tagged _ Hall) in Htags. now inversion Htags.
  - destruct (forallb well_tagged items) eqn:Hall; [|reflexivity].
    rewrite (tags_of_well_tagged _ Hall) in Htags. discriminate Htags.
Qed.

(** What a submission posted, read back from the Tag Extractor. *)
Lemma analyze_image_outcome (E : Env) (image_bytes : list byte) (model_name : string)
      (raw : PyVal) :
  outcome (analyze_image E image_bytes model_name) = Ok raw ->
  extracted E (requests_post E (tag_request E model_name image_bytes)) = raw.
Proof.
  rewrite analyze_image_run. intros H. now inversion H.
Qed.

(** X2.  In a Medical run that posts the tag extraction, a result of
    the Tag Extractor that is not a list (a dict, a string such as the
    error string, a number) is not collapsed: its [str] fills the tags
    slot of the one prompt sent to the model. *)
Theorem medical_non_list_is_passed_uncollapsed
        (E : Env) (image_bytes : list byte) (user_query : string) (raw : PyVal) :
  In (HttpPost (tag_request E (MEDICAL_MODEL (secrets E)) image_bytes))
     (trace (app E Medical (Some image_bytes) user_query)) ->
  outcome (analyze_image E image_bytes (MEDICAL_MODEL (secrets E))) = Ok raw ->
  isinstance_list raw = false ->
  prompts_of (trace (app E Medical (Some image_bytes) user_query))
  = [medical_prompt (py_str E raw) user_query].
Proof.
  intros Hin Hraw Hlist. destruct (run_posts_inv _ _ _ _ _ Hin) as [Hq Himg].
  apply analyze_image_outcome in Hraw.
  rewrite (run_prompts _ _ _ _ Hq Himg), pipeline_prompts.
  cbn [endpoint_model]. rewrite Hraw. cbn [analysis_text].
  destruct raw; try discriminate Hlist; reflexivity.
Qed.

(** X2 on a caption object returned to a Medical submission. *)
Lemma medical_non_list_caption :
  prompts_of (trace (app caption_env Medical (Some demo_image) "What is this?"))
  = [medical_prompt "{'description': 'a red bicycle'}" "What is this?"].
Proof.
  apply (medical_non_list_is_passed_uncollapsed
           caption_env demo_image "What is this?"
           (PyDict [("description", PyStr "a red bicycle")])).
  - in_trace.
  - reflexivity.
  - reflexivity.
Defined.

(** X3.  In a Medical run that posts the tag extraction, when the Tag
    Extractor returns a list, the model is called exactly when every
    item is a dict with a [str] label, on the prompt with the joined
    labels; otherwise the collapse raises, the model is not called and
    the one message shown is the failure message. *)
Theorem medical_list_reaches_model_iff_well_tagged
        (E : Env) (image_bytes : list byte) (user_query : string)
        (items : list PyVal) :
  In (HttpPost (tag_request E (MEDICAL_MODEL (secrets E)) image_bytes))
     (trace (app E Medical (Some image_bytes) user_query)) ->
  outcome (analyze_image E image_bytes (MEDICAL_MODEL (secrets E))) = Ok (PyList items) ->
  if forallb well_tagged items then
    prompts_of (trace (app E Medical (Some image_bytes) user_query))
    = [medical_prompt (String.concat ", " (labels_of items)) user_query]
  else
    prompts_of (trace (app E Medical (Some image_bytes) user_query)) = []
    /\ written_of (trace (app E Medical (Some image_bytes) user_query)) = []
    /\ exists e,
         tags_of (PyList items) = Raise e
         /\ errors_of (trace (app E Medical (Some image_bytes) user_query))
            = ["Analysis failed: " ++ exn_str E e].
Proof.
  intros Hin Hraw. destruct (run_posts_inv _ _ _ _ _ Hin) as [Hq Himg].
  apply analyze_image_outcome in Hraw.
  rewrite (run_prompts _ _ _ _ Hq Himg), (run_written _ _ _ _ Hq Himg),
    (run_errors _ _ _ _ Hq Himg).
  rewrite pipeline_prompts, pipeline_written, pipeline_errors.
  cbn [endpoint_model]. rewrite Hraw. cbn [analysis_text].
  destruct (forallb well_tagged items) eqn:Hall.
  - rewrite (tags_of_well_tagged _ Hall). reflexivity.
  - destruct (tags_of (PyList items)) as [v|e] eqn:Htags.
    + rewrite (tags_of_ok_well_tagged _ _ Htags) in Hall. discriminate Hall.
    + repeat split. exists e. split; reflexivity.
Qed.

(** X3 on a tag whose label is a number: [str.join] raises. *)
Lemma medical_list_numeric_label :
  prompts_of (trace (app numeric_label_env Medical (Some demo_image) "What is this?")) = []
  /\ written_of (trace (app numeric_label_env Medical (Some demo_image) "What is this?")) = []
  /\ exists e,
       tags_of (PyList numeric_label_tags) = Raise e
       /\ errors_of (trace (app numeric_label_env Medical (Some demo_image) "What is this?"))
          = ["Analysis failed: " ++ exn_str numeric_label_env e].
Proof.
  apply (medical_list_reaches_model_iff_well_tagged
           numeric_label_env demo_image "What is this?" numeric_label_tags).
  - in_trace.
  - reflexivity.
Defined.

(* ================================================================= *)
(** ** Further properties: the branches and the display *)

(** X4.  In the Product and General categories, once the tag
    extraction is posted nothing the endpoint does can fail the
    submission before generation: whether the POST raises, answers
    another status or answers any body, the model is called exactly
    once, on the category's prompt with [str] of the Tag Extractor's
    result in the analysis slot. *)
Theorem product_and_general_always_reach_the_model
        (E : Env) (c : Category) (image_bytes : list byte) (user_query : string) :
  c <> Medical ->
  In (HttpPost (tag_request E (endpoint_model (secrets E) c) image_bytes))
     (trace (app E c (Some image_bytes) user_query)) ->
  exists raw,
    outcome (analyze_image E image_bytes (endpoint_model (secrets E) c)) = Ok raw
    /\ prompts_of (trace (app E c (Some image_bytes) user_query))
       = [prompt_for c (py_str E raw) user_query].
Proof.
  intros Hc Hin. destruct (run_posts_inv _ _ _ _ _ Hin) as [Hq Himg].
  exists (extracted E (requests_post E
            (tag_request E (endpoint_model (secrets E) c) image_bytes))).
  split.
  - rewrite analyze_image_run. reflexivity.
  - rewrite (run_prompts _ _ _ _ Hq Himg), pipeline_prompts.
    destruct c; [reflexivity | now elim Hc | reflexivity].
Qed.

(** X4 on a General submission whose endpoint answers 200 with a body
    that is not JSON. *)
Lemma general_reaches_the_model_on_bad_body :
  exists raw,
    outcome (analyze_image not_json_env demo_image
               (endpoint_model (secrets not_json_env) General)) = Ok raw
    /\ prompts_of (trace (app not_json_env General (Some demo_image) "What is this?"))
       = [prompt_for General (py_str not_json_env raw) "What is this?"].
Proof.
  apply (product_and_general_always_reach_the_model
           not_json_env General demo_image "What is this?").
  - discriminate.
  - in_trace.
Defined.

(** X5.  When the model answers the prompt of a run, the rest of the
    run is the result block and the sidebar: the results heading, right
    after it the answer, unchanged, right after it the disclaimer of the
    category when it has one (none for General).  Nothing is written,
    warned or reported as failed before the heading, and no failure
    message is shown at all. *)
Theorem model_answer_is_displayed_unchanged
        (E : Env) (c : Category) (uploaded_file : option (list byte))
        (user_query prompt answer : string) :
  In (GroqInvoke prompt) (trace (app E c uploaded_file user_query)) ->
  groq_chat E prompt = Ok answer ->
  exists before,
    trace (app E c uploaded_file user_query)
    = (before
         ++ StSubheader "Analysis Results"
            :: StWrite answer
            :: (map StWarning (displayed (disclaimer_of c)) ++ sidebar))%list
    /\ written_of before = []
    /\ warnings_of before = []
    /\ errors_of before = []
    /\ ~ In "Analysis Results" (subheaders_of before)
    /\ errors_of (trace (app E c uploaded_file user_query)) = [].
Proof.
  intros Hin Hgroq.
  destruct (run_prompt_inv _ _ _ _ _ Hin)
    as (image_bytes & text & -> & Hq & Himg & Htext & ->).
  exists (page_head
            ++ [ StImage image_bytes "Uploaded Image" true;
                 StSpinner "Analyzing...";
                 HttpPost (tag_request E (endpoint_model (secrets E) c) image_bytes);
                 GroqInvoke (prompt_for c text user_query) ])%list.
  split; [|repeat split].
  - rewrite (app_run _ _ _ _ Hq Himg). unfold pipeline. cbv zeta.
    rewrite Htext, Hgroq. reflexivity.
  - cbn. intros [H|[]]. discriminate H.
  - rewrite (run_errors _ _ _ _ Hq Himg), pipeline_errors, Htext, Hgroq. reflexivity.
Qed.

(** X5 on a Medical submission: the heading, the answer, then the
    warning. *)
Lemma model_answer_rash :
  exists before,
    trace (app rash_env Medical (Some demo_image) "What is this?")
    = (before
         ++ StSubheader "Analysis Results"
            :: StWrite "Likely a contact rash."
            :: (map StWarning (displayed (disclaimer_of Medical)) ++ sidebar))%list
    /\ written_of before = []
    /\ warnings_of before = []
    /\ errors_of before = []
    /\ ~ In "Analysis Results" (subheaders_of before)
    /\ errors_of (trace (app rash_env Medical (Some demo_image) "What is this?")) = [].
Proof.
  apply (model_answer_is_displayed_unchanged
           rash_env Medical (Some demo_image) "What is this?"
           (medical_prompt "rash, erythema" "What is this?")
           "Likely a contact rash.").
  - in_trace.
  - reflexivity.
Defined.

(** X6.  A run that posts the tag extraction ends in exactly one of
    two ways: one result is written, or one failure message is shown;
    never both and never neither. *)
Theorem submission_shows_a_result_or_a_failure
        (E : Env) (c : Category) (uploaded_file : option (list byte))
        (user_query : string) (request : Request) :
  In (HttpPost request) (trace (app E c uploaded_file user_query)) ->
  (List.length (written_of (trace (app E c uploaded_file user_query)))
   + List.length (errors_of (trace (app E c uploaded_file user_query))) = 1)%nat.
Proof.
  intros Hin.
  destruct (run_request_inv _ _ _ _ _ Hin) as (image_bytes & -> & Hq & Himg & _).
  rewrite (run_written _ _ _ _ Hq Himg), (run_errors _ _ _ _ Hq Himg).
  rewrite pipeline_written, pipeline_errors.
  destruct (analysis_text E c _) as [text|e]; [|reflexivity].
  destruct (groq_chat E _); reflexivity.
Qed.

(** X6 on a Medical submission whose tag list cannot be collapsed. *)
Lemma submission_result_or_failure_unlabelled :
  (List.length (written_of (trace (app unlabelled_env Medical (Some demo_image) "What is this?")))
   + List.length (errors_of (trace (app unlabelled_env Medical (Some demo_image) "What is this?")))
   = 1)%nat.
Proof.
  apply (submission_shows_a_result_or_a_failure
           unlabelled_env Medical (Some demo_image) "What is this?"
           (tag_request unlabelled_env (MEDICAL_MODEL demo_secrets) demo_image)).
  in_trace.
Defined.

(** X7.  From its first Streamlit call on, a run ends with an uncaught
    exception exactly when there is a file and a query and [st.image]
    raises on the file: the call stands before the [try].  Such a run
    stops right there: the page head and the one call of [st.image], no
    spinner, no remote call, no message and no sidebar.  Every other run
    returns, with the page head first and the sidebar last. *)
Theorem only_st_image_ends_a_run_uncaught
        (E : Env) (c : Category) (uploaded_file : option (list byte))
        (user_query : string) :
  outcome (app E c uploaded_file user_query)
  = match uploaded_file with
    | Some image_bytes =>
        if String.eqb user_query "" then Ok tt else st_image E image_bytes
    | None => Ok tt
    end
  /\ match outcome (app E c uploaded_file user_query) with
     | Ok _ =>
         exists body,
           trace (app E c uploaded_file user_query)
           = (page_head ++ body ++ sidebar)%list
     | Raise _ =>
         exists image_bytes,
           uploaded_file = Some image_bytes
           /\ trace (app E c uploaded_file user_query)
              = (page_head ++ [StImage image_bytes "Uploaded Image" true])%list
     end.
Proof.
  destruct (app_cases E c uploaded_file user_query)
    as [Hidle | [(image_bytes & e & -> & Hq & Himg) | (image_bytes & -> & Hq & Himg)]].
  - rewrite (app_idle _ _ _ _ Hidle). cbn [outcome snd trace fst]. split.
    + destruct Hidle as [-> | ->]; [reflexivity|]. now destruct uploaded_file.
    + now exists [].
  - rewrite (app_image_error _ _ _ _ _ Hq Himg). cbn [outcome snd trace fst].
    apply String.eqb_neq in Hq. rewrite Hq, Himg. split; [reflexivity|].
    now exists image_bytes.
  - rewrite (app_run _ _ _ _ Hq Himg). cbn [outcome snd trace fst].
    apply String.eqb_neq in Hq. rewrite Hq, Himg. split; [reflexivity|].
    now exists (StImage image_bytes "Uploaded Image" true :: StSpinner "Analyzing..."
                  :: pipeline E c image_bytes user_query).
Qed.

(** X8.  The gate of the script tests presence only: [st.image] is
    called, once, exactly when a file is uploaded and the query is not
    the empty string, whatever the file holds (also no bytes) and
    whatever the query is (also blanks); the tag extraction is posted,
    once, exactly when in addition [st.image] returns. *)
Theorem submission_happens_iff_file_and_query
        (E : Env) (c : Category) (uploaded_file : option (list byte))
        (user_query : string) :
  images_of (trace (app E c uploaded_file user_query))
  = match uploaded_file with
    | Some image_bytes => if String.eqb user_query "" then [] else [image_bytes]
    | None => []
    end
  /\ requests_of (trace (app E c uploaded_file user_query))
     = match uploaded_file with
       | Some image_bytes =>
           if String.eqb user_query "" then []
           else match st_image E image_bytes with
                | Ok _ => [tag_request E (endpoint_model (secrets E) c) image_bytes]
                | Raise _ => []
                end
       | None => []
       end.
Proof.
  destruct (app_cases E c uploaded_file user_query)
    as [Hidle | [(image_bytes & e & -> & Hq & Himg) | (image_bytes & -> & Hq & Himg)]].
  - rewrite (app_idle _ _ _ _ Hidle).
    destruct Hidle as [-> | ->]; [|destruct uploaded_file]; split; reflexivity.
  - rewrite (app_image_error _ _ _ _ _ Hq Himg).
    apply String.eqb_neq in Hq. rewrite Hq, Himg. split; reflexivity.
  - split.
    + rewrite (app_run _ _ _ _ Hq Himg). cbv [trace fst images_of page_head sidebar].
      rewrite flat_map_app. cbn [flat_map List.app]. rewrite flat_map_app.
      cbn [flat_map List.app]. rewrite app_nil_r.
      apply String.eqb_neq in Hq. rewrite Hq. f_equal.
      unfold pipeline. cbv zeta.
      destruct (analysis_text E c _) as [text|e]; [|reflexivity].
      destruct (groq_chat E _) as [answer|e]; [|reflexivity].
      destruct c; reflexivity.
    + rewrite (run_requests _ _ _ _ Hq Himg), pipeline_requests.
      apply String.eqb_neq in Hq. rewrite Hq, Himg. reflexivity.
Qed.

(** X9.  Formatting never fails in the three chains: the fields of
    each template are the keyword arguments its function passes.  For
    every tags value (a string, a list, a dict, a number, [None]) and
    every analysis and query, each chain makes exactly one call to the
    model, on its template with the two slots filled, and returns or
    raises as the model does. *)
Theorem chains_call_the_model_once_on_the_filled_template
        (E : Env) (tags : PyVal) (analysis query : string) :
  get_medical_response E tags query
    = ([GroqInvoke (medical_prompt (py_str E tags) query)],
       groq_chat E (medical_prompt (py_str E tags) query))
  /\ get_product_response E analysis query
     = ([GroqInvoke (product_prompt analysis query)],
        groq_chat E (product_prompt analysis query))
  /\ get_general_response E analysis query
     = ([GroqInvoke (general_prompt analysis query)],
        groq_chat E (general_prompt analysis query)).
Proof.
  split; [|split].
  - apply get_medical_response_run.
  - apply get_product_response_run.
  - apply get_general_response_run.
Qed.

(** X10.  In a run that posts the tag extraction, when the endpoint
    answers with a status other than 200, the analysis slot of the
    prompt is empty in the Medical category (the join of no labels) and
    holds ["[]"] in the Product and General categories ([str] of the
    empty list). *)
Theorem non_200_prompt_analysis_slot
        (E : Env) (c : Category) (image_bytes : list byte) (user_query : string)
        (response : Response) :
  In (HttpPost (tag_request E (endpoint_model (secrets E) c) image_bytes))
     (trace (app E c (Some image_bytes) user_query)) ->
  requests_post E (tag_request E (endpoint_model (secrets E) c) image_bytes)
    = Ok response ->
  status_code response <> 200%Z ->
  prompts_of (trace (app E c (Some image_bytes) user_query))
  = [prompt_for c (match c with Medical => "" | _ => "[]" end) user_query].
Proof.
  intros Hin Hpost Hstatus. destruct (run_posts_inv _ _ _ _ _ Hin) as [Hq Himg].
  apply Z.eqb_neq in Hstatus.
  rewrite (run_prompts _ _ _ _ Hq Himg), pipeline_prompts, Hpost.
  unfold extracted. rewrite Hstatus, analysis_text_empty. reflexivity.
Qed.

(** X10 on an HTTP 503 in the Medical category. *)
Lemma non_200_medical_prompt :
  prompts_of (trace (app unavailable_env Medical (Some demo_image) "What is this?"))
  = [medical_prompt "" "What is this?"].
Proof.
  apply (non_200_prompt_analysis_slot
           unavailable_env Medical demo_image "What is this?"
           {| status_code := 503;
              json := Ok (PyDict [("error", PyStr "Service Unavailable")]) |}).
  - in_trace.
  - reflexivity.
  - discriminate.
Defined.

(* ================================================================= *)
(** ** Further properties: the order of the two remote calls *)

(** ** Further properties: the order of the two remote calls *)

Lemma singleton_split {A : Type} (l1 l2 : list A) (x y : A) :
  (l1 ++ x :: l2 = [y])%list -> l1 = [] /\ l2 = [].
Proof.
  destruct l1 as [|a l1]; cbn [List.app]; intros H.
  - now inversion H.
  - inversion H as [[Ha Hrest]]. symmetry in Hrest. now apply app_cons_not_nil in Hrest.
Qed.

Lemma split_at_prompt (L R : list Event) (p0 : string) :
  forall (pre rest : list Event) (p : string),
    prompts_of L = [] ->
    prompts_of pre = [] ->
    (L ++ GroqInvoke p0 :: R = pre ++ GroqInvoke p :: rest)%list ->
    pre = L /\ rest = R.
Proof.
  induction L as [|a L IH]; intros pre rest p HL Hpre Heq.
  - destruct pre as [|x pre]; cbn [List.app] in Heq.
    + inversion Heq. now split.
    + inversion Heq; subst x. discriminate Hpre.
  - destruct pre as [|x pre]; cbn [List.app] in Heq.
    + inversion Heq; subst a. discriminate HL.
    + inversion Heq as [[Hax Htail]]. subst x.
      unfold prompts_of in HL, Hpre. cbn [flat_map] in HL, Hpre.
      apply app_eq_nil in HL. apply app_eq_nil in Hpre.
      destruct (IH pre rest p (proj2 HL) (proj2 Hpre) Htail) as [-> ->].
      now split.
Qed.

(** X11.  The model is called after the tag extraction, never before
    it and never without it: whatever precedes the model call in a run
    holds the one POST of the tag extraction and no model call, and
    whatever follows it holds no remote call at all. *)
Theorem tag_extraction_precedes_generation
        (E : Env) (c : Category) (uploaded_file : option (list byte))
        (user_query prompt : string) (pre rest : list Event) :
  trace (app E c uploaded_file user_query) = (pre ++ GroqInvoke prompt :: rest)%list ->
  (exists image_bytes,
      uploaded_file = Some image_bytes
      /\ requests_of pre = [tag_request E (endpoint_model (secrets E) c) image_bytes])
  /\ prompts_of pre = []
  /\ requests_of rest = []
  /\ prompts_of rest = [].
Proof.
  intros Hsplit.
  assert (Hin : In (GroqInvoke prompt) (trace (app E c uploaded_file user_query))).
  { rewrite Hsplit. apply in_elt. }
  destruct (run_prompt_inv _ _ _ _ _ Hin)
    as (image_bytes & text & -> & Hq & Himg & Htext & ->).
  pose proof (run_prompts E c image_bytes user_query Hq Himg) as Hone.
  rewrite pipeline_prompts, Htext, Hsplit in Hone.
  unfold prompts_of in Hone. rewrite flat_map_app in Hone. cbn [flat_map List.app] in Hone.
  apply singleton_split in Hone. destruct Hone as [Hpre Hrest].
  rewrite (app_run _ _ _ _ Hq Himg) in Hsplit. unfold pipeline in Hsplit.
  cbv zeta in Hsplit. rewrite Htext in Hsplit. cbv [trace fst] in Hsplit.
  set (request := tag_request E (endpoint_model (secrets E) c) image_bytes) in *.
  set (tail := match groq_chat E (prompt_for c text user_query) with
               | Ok answer => result_block c answer
               | Raise e => [StError (analysis_failed E e)]
               end) in *.
  assert (Hshape :
            ((page_head ++ [StImage image_bytes "Uploaded Image" true;
                            StSpinner "Analyzing..."; HttpPost request])
               ++ GroqInvoke (prompt_for c text user_query) :: (tail ++ sidebar)
             = pre ++ GroqInvoke (prompt_for c text user_query) :: rest)%list).
  { rewrite <- Hsplit. reflexivity. }
  apply split_at_prompt in Hshape; [|reflexivity|exact Hpre].
  destruct Hshape as [-> ->].
  split; [exists image_bytes; split; reflexivity|].
  split; [reflexivity|]. split; [|exact Hrest].
  subst tail. unfold requests_of. rewrite flat_map_app.
  destruct (groq_chat E _); [destruct c|]; reflexivity.
Qed.

(** X11 on the run that collapses the two tags of the specification. *)
Lemma tag_extraction_precedes_generation_rash :
  (exists image_bytes,
      Some demo_image = Some image_bytes
      /\ requests_of
           (page_head ++ [StImage demo_image "Uploaded Image" true;
                          StSpinner "Analyzing...";
                          HttpPost (tag_request rash_env
                                      (endpoint_model (secrets rash_env) Medical)
                                      demo_image)])%list
         = [tag_request rash_env (endpoint_model (secrets rash_env) Medical) image_bytes])
  /\ prompts_of
       (page_head ++ [StImage demo_image "Uploaded Image" true;
                      StSpinner "Analyzing...";
                      HttpPost (tag_request rash_env
                                  (endpoint_model (secrets rash_env) Medical)
                                  demo_image)])%list = []
  /\ requests_of (result_block Medical "Likely a contact rash." ++ sidebar)%list = []
  /\ prompts_of (result_block Medical "Likely a contact rash." ++ sidebar)%list = [].
Proof.
  apply (tag_extraction_precedes_generation
           rash_env Medical (Some demo_image) "What is this?"
           (medical_prompt "rash, erythema" "What is this?")).
  reflexivity.
Defined.
